(** * Request authorization gateway ([src/middleware.ts])

    A shallow embedding of the Next.js middleware of the migrant-worker
    health-record application: the static path classifier, the credential
    extractor, the permission resolver [getRoutePermissions], the dashboard
    table [getDashboardUrl] and the decision function [middleware].

    Two collaborators are imported by the source from ['@/lib/auth'] and are
    not part of it: the table [ROUTE_PERMISSIONS] and the verifier
    [TokenManager.verifyToken].  Both are taken as parameters. *)

From Stdlib Require Import String Ascii List Bool Arith Lia.
Import ListNotations.
Open Scope string_scope.

(** ** JavaScript string primitives used by the middleware *)

Module JsString.

(** [pathname.startsWith(route)] *)
Definition startsWith (s search : string) : bool := String.prefix search s.

(** [pathname.includes(search)]: [search] occurs at some position of [s]. *)
Fixpoint includes (s search : string) : bool :=
  String.prefix search s ||
  match s with
  | EmptyString => false
  | String _ rest => includes rest search
  end.

(** [pathname.endsWith(search)] *)
Definition endsWith (s search : string) : bool :=
  Nat.leb (String.length search) (String.length s) &&
  String.eqb
    (String.substring (String.length s - String.length search)
                      (String.length search) s)
    search.

(** [s.substring(start)]: everything from index [start] on. *)
Fixpoint substring (s : string) (start : nat) : string :=
  match start, s with
  | 0, _ => s
  | S _, EmptyString => EmptyString
  | S n, String _ rest => substring rest n
  end.

(** Truthiness of a string: every string but the empty one. *)
Definition truthy (s : string) : bool :=
  match s with
  | EmptyString => false
  | String _ _ => true
  end.

End JsString.

Import JsString.

(** ** Data model *)

(** What the middleware reads of a [NextRequest]:
    [request.nextUrl.pathname], [request.headers.get('authorization')]
    (a string or [null]) and [request.cookies.get('auth_token')?.value]
    (a string or [undefined]). *)
Record NextRequest : Type := mkRequest {
  pathname : string;
  authorization : option string;
  auth_token : option string
}.

(** The payload [TokenManager.verifyToken] yields for a valid token. *)
Record TokenPayload : Type := mkPayload {
  userId : string;
  role : string;
  email : string;
  permissions : list string
}.

(** A URL built by [new URL(path, request.url)]: same origin as the request,
    the given path, and the query parameters set on it. *)
Record URL : Type := mkURL {
  url_pathname : string;
  searchParams : list (string * string)
}.

(** The three shapes of [NextResponse] the middleware builds. *)
Inductive NextResponse : Type :=
| Next (headers : list (string * string))
    (* NextResponse.next(), then response.headers.set(k, v) in order *)
| Json (status : nat) (error : string)
    (* NextResponse.json({ error }, { status }) *)
| Redirect (target : URL).
    (* NextResponse.redirect(url) *)

(** ** Configuration tables of the source *)

Definition PUBLIC_ROUTES : list string :=
  [ "/";
    "/help";
    "/api/auth/login";
    "/api/auth/register";
    "/api/auth/refresh";
    "/workers/register";
    "/_next";
    "/favicon.ico" ].

Definition AUTH_ONLY_ROUTES : list string :=
  [ "/api/auth/verify" ].

(** [ROUTE_PERMISSIONS], imported from ['@/lib/auth']: a mapping from route
    patterns to permission arrays, taken as the list of its entries in the
    order [Object.entries] enumerates them (the order of declaration, the keys
    being route patterns and not array indices), one entry per key.  Property
    lookup is lookup among these entries: the names an object inherits from
    [Object.prototype] ([constructor], [toString], ...) are no pathnames. *)
Definition RoutePermissions : Type := list (string * list string).

(** ** Static path classifier (lines 24-44) *)

Definition isStaticFile (pathname : string) : bool :=
  includes pathname "_next" ||
  includes pathname "favicon" ||
  endsWith pathname ".js" ||
  endsWith pathname ".css" ||
  endsWith pathname ".png" ||
  endsWith pathname ".jpg" ||
  endsWith pathname ".svg".

Definition matchesRoute (pathname route : string) : bool :=
  String.eqb pathname route || startsWith pathname route.

Definition isPublicRoute (pathname : string) : bool :=
  existsb (matchesRoute pathname) PUBLIC_ROUTES.

Definition isAuthOnlyRoute (pathname : string) : bool :=
  existsb (matchesRoute pathname) AUTH_ONLY_ROUTES.

(** A path is exempt when either early [return NextResponse.next()] fires. *)
Definition isExempt (pathname : string) : bool :=
  isStaticFile pathname || isPublicRoute pathname.

(** ** Credential extractor (lines 46-55) *)

(** [request.cookies.get('auth_token')?.value || null] *)
Definition cookieToken (req : NextRequest) : option string :=
  match auth_token req with
  | Some v => if truthy v then Some v else None
  | None => None
  end.

Definition extractToken (req : NextRequest) : option string :=
  match authorization req with
  | Some authHeader =>
      if truthy authHeader && startsWith authHeader "Bearer "
      then Some (substring authHeader 7)
      else cookieToken req
  | None => cookieToken req
  end.

(** ** Permission resolver (lines 135-166) *)

(** [ROUTE_PERMISSIONS[pathname]]: the array stored under the key, if any.
    An array is truthy whatever its length. *)
Fixpoint lookupRoute (table : RoutePermissions) (pathname : string)
  : option (list string) :=
  match table with
  | [] => None
  | (routePattern, perms) :: rest =>
      if String.eqb pathname routePattern then Some perms
      else lookupRoute rest pathname
  end.

(** The [for ... of Object.entries(ROUTE_PERMISSIONS)] loop. *)
Fixpoint firstPrefixMatch (entries : RoutePermissions) (pathname : string)
  : option (list string) :=
  match entries with
  | [] => None
  | (routePattern, perms) :: rest =>
      if startsWith pathname routePattern then Some perms
      else firstPrefixMatch rest pathname
  end.

(** The hard-coded API route patterns and the default. *)
Definition structuralPermissions (pathname : string) : list string :=
  if startsWith pathname "/api/workers/" then
    if includes pathname "/documents"
    then ["read:own_documents"; "read:patient_documents"]
    else ["read:own_profile"; "read:patient_profiles"]
  else if startsWith pathname "/api/doctors/" then
    ["read:patient_profiles"]
  else if startsWith pathname "/api/admin/" then
    ["read:all_users"]
  else [].

Definition getRoutePermissions (ROUTE_PERMISSIONS : RoutePermissions)
    (pathname : string) : list string :=
  match lookupRoute ROUTE_PERMISSIONS pathname with
  | Some perms => perms
  | None =>
      match firstPrefixMatch ROUTE_PERMISSIONS pathname with
      | Some perms => perms
      | None => structuralPermissions pathname
      end
  end.

(** ** Dashboard table (lines 171-182) *)

Definition getDashboardUrl (role : string) : string :=
  if String.eqb role "worker" then "/workers/dashboard"
  else if String.eqb role "doctor" then "/doctors"
  else if String.eqb role "admin" then "/admin"
  else "/".

(** ** Decision engine (lines 21-130) *)

(** [new URL('/auth/login', request.url)] with
    [searchParams.set('redirect', pathname)]. *)
Definition loginUrl (pathname : string) : URL :=
  mkURL "/auth/login" [("redirect", pathname)].

(** The response of lines 59-69 and 75-84: a JSON error for API paths, a
    redirect to the login page for web routes. *)
Definition unauthenticated (pathname message : string) : NextResponse :=
  if startsWith pathname "/api/" then Json 401 message
  else Redirect (loginUrl pathname).

(** The three [response.headers.set] calls of lines 94-98 and 124-129. *)
Definition withUserInfo (payload : TokenPayload) : NextResponse :=
  Next [ ("x-user-id", userId payload);
         ("x-user-role", role payload);
         ("x-user-email", email payload) ].

(** [payload.permissions.includes(permission)] *)
Definition hasString (l : list string) (x : string) : bool :=
  existsb (String.eqb x) l.

Section Gateway.

Variable ROUTE_PERMISSIONS : RoutePermissions.
Variable verifyToken : string -> option TokenPayload.

(** Lines 87-129: what happens once the token has been verified. *)
Definition authorize (pathname : string) (payload : TokenPayload)
  : NextResponse :=
  if isAuthOnlyRoute pathname then withUserInfo payload
  else
    let requiredPermissions := getRoutePermissions ROUTE_PERMISSIONS pathname in
    if Nat.ltb 0 (List.length requiredPermissions) then
      let hasPermission :=
        existsb (hasString (permissions payload)) requiredPermissions in
      if negb hasPermission then
        if startsWith pathname "/api/" then Json 403 "Insufficient permissions"
        else Redirect (mkURL (getDashboardUrl (role payload)) [])
      else withUserInfo payload
    else withUserInfo payload.

(** Lines 72-85 followed by [authorize]: the outcome of verification. *)
Definition afterVerify (pathname : string) (payload : option TokenPayload)
  : NextResponse :=
  match payload with
  | None => unauthenticated pathname "Invalid or expired token"
  | Some payload => authorize pathname payload
  end.

(** Lines 46-130: the part of the middleware behind the exemption checks. *)
Definition authenticate (req : NextRequest) : NextResponse :=
  match extractToken req with
  | Some token =>
      if truthy token then afterVerify (pathname req) (verifyToken token)
      else unauthenticated (pathname req) "Authentication required"
  | None => unauthenticated (pathname req) "Authentication required"
  end.

Definition middleware (req : NextRequest) : NextResponse :=
  if isStaticFile (pathname req) then Next []
  else if isPublicRoute (pathname req) then Next []
  else authenticate req.

End Gateway.

(** ** The classification rules, the table keys and the absence of a
    credential, as the specification words them *)

Definition FRAMEWORK_MARKERS : list string := ["_next"; "favicon"].
Definition STATIC_EXTENSIONS : list string :=
  [".js"; ".css"; ".png"; ".jpg"; ".svg"].

(** The classification rules in the specification's words: a path is exempt
    when it contains an internal-framework marker, ends in a static-asset
    extension, or is equal to (empty [rest]) or prefixed by a public route. *)
Inductive Exempt (p : string) : Prop :=
| ExemptMarker (marker before after : string) :
    In marker FRAMEWORK_MARKERS -> p = before ++ marker ++ after -> Exempt p
| ExemptAsset (ext before : string) :
    In ext STATIC_EXTENSIONS -> p = before ++ ext -> Exempt p
| ExemptPublic (route rest : string) :
    In route PUBLIC_ROUTES -> p = route ++ rest -> Exempt p.

(** The keys of the table, in declaration order. *)
Definition routePatterns (table : RoutePermissions) : list string :=
  map fst table.

(** No credential: no Authorization header with the [Bearer ] scheme and
    no [auth_token] cookie. *)
Definition credentialAbsent (req : NextRequest) : Prop :=
  (forall h, authorization req = Some h -> startsWith h "Bearer " = false) /\
  auth_token req = None.

(** ** Header values of the platform

    [Headers.get] of the Fetch API returns a value with the HTTP whitespace
    (space, tab, line feed, carriage return) stripped from both ends. *)





(** ** The configuration tables as shared objects

    In the running program the tables are objects of the heap: the arrays
    [PUBLIC_ROUTES] and [AUTH_ONLY_ROUTES], and the object
    [ROUTE_PERMISSIONS] whose property values are arrays.  The model below
    runs the same code over an explicit store, where an array is read through
    its address and an array literal or a spread [[...a]] allocates. *)

Module Shared.

Definition ref : Type := nat.

Record Store : Type := mkStore {
  arrays : list (list string);          (* the array objects, by address *)
  routePermissions : list (string * ref) (* own properties of ROUTE_PERMISSIONS *)
}.

(** Where the two module-level [const] arrays live. *)
Record Env : Type := mkEnv {
  PUBLIC_ROUTES_at : ref;
  AUTH_ONLY_ROUTES_at : ref
}.

(** A computation that reads and extends the store. *)
Definition M (A : Type) : Type := Store -> A * Store.

Definition ret {A} (a : A) : M A := fun st => (a, st).

Definition bind {A B} (m : M A) (k : A -> M B) : M B :=
  fun st => let (a, st') := m st in k a st'.

Declare Scope store_scope.
Delimit Scope store_scope with store.
Notation "x <- m ;; k" := (bind m (fun x => k))
  (at level 61, m at next level, right associativity) : store_scope.
Local Open Scope store_scope.

(** Reading an array: [a.some(...)], [a.length], the source of a spread. *)
Definition readArray (r : ref) : M (list string) :=
  fun st => (nth r (arrays st) [], st).

(** An array literal, or the array a spread builds. *)
Definition newArray (elements : list string) : M ref :=
  fun st => (List.length (arrays st),
             mkStore (arrays st ++ [elements])%list (routePermissions st)).

(** [Object.entries(ROUTE_PERMISSIONS)], each value an array address. *)
Definition entries : M (list (string * ref)) :=
  fun st => (routePermissions st, st).

Fixpoint lookupRef (props : list (string * ref)) (pathname : string)
  : option ref :=
  match props with
  | [] => None
  | (routePattern, r) :: rest =>
      if String.eqb pathname routePattern then Some r
      else lookupRef rest pathname
  end.

Fixpoint firstPrefixRef (props : list (string * ref)) (pathname : string)
  : option ref :=
  match props with
  | [] => None
  | (routePattern, r) :: rest =>
      if startsWith pathname routePattern then Some r
      else firstPrefixRef rest pathname
  end.

(** [[...a]]: a new array with the elements of [a]. *)
Definition spread (r : ref) : M ref :=
  elements <- readArray r ;; newArray elements.

Definition getRoutePermissions (pathname : string) : M ref :=
  props <- entries ;;
  match lookupRef props pathname with
  | Some r => spread r
  | None =>
      match firstPrefixRef props pathname with
      | Some r => spread r
      | None => newArray (structuralPermissions pathname)
      end
  end.

Section Gateway.

Variable env : Env.
Variable verifyToken : string -> option TokenPayload.

Definition authorize (pathname : string) (payload : TokenPayload)
  : M NextResponse :=
  authOnly <- readArray (AUTH_ONLY_ROUTES_at env) ;;
  if existsb (matchesRoute pathname) authOnly then ret (withUserInfo payload)
  else
    r <- getRoutePermissions pathname ;;
    requiredPermissions <- readArray r ;;
    if Nat.ltb 0 (List.length requiredPermissions) then
      let hasPermission :=
        existsb (hasString (permissions payload)) requiredPermissions in
      if negb hasPermission then
        if startsWith pathname "/api/"
        then ret (Json 403 "Insufficient permissions")
        else ret (Redirect (mkURL (getDashboardUrl (role payload)) []))
      else ret (withUserInfo payload)
    else ret (withUserInfo payload).

Definition authenticate (req : NextRequest) : M NextResponse :=
  match extractToken req with
  | Some token =>
      if truthy token then
        match verifyToken token with
        | None =>
            ret (unauthenticated (pathname req) "Invalid or expired token")
        | Some payload => authorize (pathname req) payload
        end
      else ret (unauthenticated (pathname req) "Authentication required")
  | None => ret (unauthenticated (pathname req) "Authentication required")
  end.

Definition middleware (req : NextRequest) : M NextResponse :=
  if isStaticFile (pathname req) then ret (Next [])
  else
    publicRoutes <- readArray (PUBLIC_ROUTES_at env) ;;
    if existsb (matchesRoute (pathname req)) publicRoutes then ret (Next [])
    else authenticate req.

End Gateway.

(** The permission table a store holds, as the pure model takes it. *)
Definition tableOf (st : Store) : RoutePermissions :=
  map (fun prop => (fst prop, nth (snd prop) (arrays st) []))
      (routePermissions st).

(** The store after module initialisation: the two route arrays at their
    addresses, and every property of the table pointing to an array. *)
Record loaded (env : Env) (st : Store) : Prop := {
  public_loaded :
    nth_error (arrays st) (PUBLIC_ROUTES_at env) = Some PUBLIC_ROUTES;
  authOnly_loaded :
    nth_error (arrays st) (AUTH_ONLY_ROUTES_at env) = Some AUTH_ONLY_ROUTES;
  table_loaded :
    forall k r, In (k, r) (routePermissions st) -> r < List.length (arrays st)
}.

(** [st'] has every object of [st], unchanged, and possibly new arrays. *)
Definition extends (st st' : Store) : Prop :=
  routePermissions st' = routePermissions st /\
  exists fresh, arrays st' = (arrays st ++ fresh)%list.

End Shared.

(** ** Example data *)

(** A worker's identity, as a verifier would yield it. *)
Definition workerPayload : TokenPayload :=
  mkPayload "w-17" "worker" "w17@example.org" ["read:own_profile"].

Definition acceptAsWorker (token : string) : option TokenPayload :=
  Some workerPayload.

Definition rejectAll (token : string) : option TokenPayload := None.

(** A table whose first entry is a prefix of its second key. *)
Definition overlappingTable : RoutePermissions :=
  [ ("/api/workers/", ["manage:workers"]);
    ("/api/workers/me", ["read:own_profile"]);
    ("/api/admin", ["read:all_users"]);
    ("/api/admin/audit", ["read:audit_log"]) ].

(** A store after initialisation, and a request that runs the whole
    pipeline: its path is outside the public routes. *)
Definition demoEnv : Shared.Env := Shared.mkEnv 0 1.

Definition demoStore : Shared.Store :=
  Shared.mkStore
    [ PUBLIC_ROUTES; AUTH_ONLY_ROUTES; ["read:own_profile"; "read:patient_profiles"] ]
    [ ("api/records", 2) ].

Definition demoRequest : NextRequest :=
  mkRequest "api/records/17" (Some "Bearer worker-token") None.

(** A table keyed by paths outside the public routes. *)
Definition recordsTable : RoutePermissions :=
  [ ("api/records", ["read:own_profile"; "read:patient_profiles"]);
    ("api/admin", ["read:all_users"]) ].

(** The worker's identity with one more permission. *)
Definition seniorWorkerPayload : TokenPayload :=
  mkPayload "w-17" "worker" "w17@example.org"
            ["read:patient_documents"; "read:own_profile"].

(** A verifier that accepts one token only. *)
Definition acceptWorkerToken (token : string) : option TokenPayload :=
  if String.eqb token "worker-token" then Some workerPayload else None.

(** Requests for a worker's record: with a bearer token and a stale cookie,
    with the scheme in lower case and the token in the cookie, and with an
    empty cookie only. *)
Definition bearerRequest : NextRequest :=
  mkRequest "/api/workers/42" (Some "Bearer worker-token") (Some "stale-cookie").

Definition lowerCaseSchemeRequest : NextRequest :=
  mkRequest "/api/workers/42" (Some "bearer worker-token") (Some "worker-token").

Definition emptyCookieRequest : NextRequest :=
  mkRequest "/api/workers/42" None (Some "").

(** ** The string primitives meet their JavaScript meaning *)

Module JsStringFacts.

Lemma startsWith_app (search rest : string) :
  startsWith (search ++ rest) search = true.
Proof.
  unfold startsWith.
  induction search as [|c search IH]; simpl.
  - destruct rest; reflexivity.
  - destruct (ascii_dec c c) as [_|ne]; [exact IH | now elim ne].
Qed.

Lemma startsWith_inv (s search : string) :
  startsWith s search = true -> exists rest, s = search ++ rest.
Proof.
  unfold startsWith. revert s.
  induction search as [|c search IH]; intros s H.
  - exists s. reflexivity.
  - destruct s as [|d s]; simpl in H; [discriminate|].
    destruct (ascii_dec c d) as [->|]; [|discriminate].
    destruct (IH s H) as [rest ->]. exists rest. reflexivity.
Qed.

Lemma startsWith_iff (s search : string) :
  startsWith s search = true <-> exists rest, s = search ++ rest.
Proof.
  split; [apply startsWith_inv|].
  intros [rest ->]. apply startsWith_app.
Qed.

Lemma append_assoc (a b c : string) : (a ++ b) ++ c = a ++ (b ++ c).
Proof. induction a as [|x a IH]; simpl; [reflexivity | now rewrite IH]. Qed.

Lemma append_empty_r (a : string) : a ++ "" = a.
Proof. induction a as [|x a IH]; simpl; [reflexivity | now rewrite IH]. Qed.

Lemma append_length (a b : string) :
  String.length (a ++ b) = String.length a + String.length b.
Proof. induction a as [|x a IH]; simpl; [reflexivity | now rewrite IH]. Qed.

(** A path that starts with a longer pattern starts with each of that
    pattern's own prefixes. *)
Lemma startsWith_shorter (s search more : string) :
  startsWith s (search ++ more) = true -> startsWith s search = true.
Proof.
  intros H. apply startsWith_inv in H. destruct H as [rest ->].
  rewrite append_assoc. apply startsWith_app.
Qed.

Lemma startsWith_refl (s : string) : startsWith s s = true.
Proof.
  rewrite <- (append_empty_r s) at 1. apply startsWith_app.
Qed.

Lemma includes_empty (search : string) :
  includes "" search = String.prefix search "".
Proof. simpl. apply orb_false_r. Qed.

Lemma includes_cons (c : ascii) (s search : string) :
  includes (String c s) search =
  String.prefix search (String c s) || includes s search.
Proof. reflexivity. Qed.

Lemma includes_iff (s search : string) :
  includes s search = true <-> exists before after, s = before ++ search ++ after.
Proof.
  split.
  - induction s as [|c s IH]; intros H.
    + rewrite includes_empty in H. apply (startsWith_inv "" search) in H.
      destruct H as [rest E]. exists "", rest. exact E.
    + rewrite includes_cons in H. apply orb_true_iff in H. destruct H as [H|H].
      * apply (startsWith_inv (String c s) search) in H.
        destruct H as [rest E]. exists "", rest. exact E.
      * destruct (IH H) as (before & after & ->).
        exists (String c before), after. reflexivity.
  - intros (before & after & ->).
    induction before as [|c before IH].
    + assert (P : String.prefix search (search ++ after) = true)
        by apply startsWith_app.
      change ("" ++ search ++ after) with (search ++ after).
      destruct (search ++ after).
      * now rewrite includes_empty.
      * now rewrite includes_cons, P.
    + change (String c before ++ search ++ after)
        with (String c (before ++ search ++ after)).
      rewrite includes_cons, IH. apply orb_true_r.
Qed.


Lemma stdlib_substring_all (s : string) :
  String.substring 0 (String.length s) s = s.
Proof. induction s as [|c s IH]; simpl; [reflexivity | now rewrite IH]. Qed.

Lemma stdlib_substring_skip (a b : string) (n : nat) :
  String.substring (String.length a) n (a ++ b) = String.substring 0 n b.
Proof.
  induction a as [|c a IH]; simpl; [reflexivity|]. exact IH.
Qed.

Lemma stdlib_substring_split (s : string) (n : nat) :
  n <= String.length s ->
  exists a, s = a ++ String.substring n (String.length s - n) s
            /\ String.length a = n.
Proof.
  revert n. induction s as [|c s IH]; intros n Hn; simpl in *.
  - assert (n = 0) by lia. subst. exists "". split; reflexivity.
  - destruct n as [|n].
    + exists "". simpl. rewrite stdlib_substring_all. split; reflexivity.
    + destruct (IH n) as (a & E & L); [lia|].
      exists (String c a). simpl. split; [now rewrite <- E | now rewrite L].
Qed.

Lemma endsWith_iff (s search : string) :
  endsWith s search = true <-> exists before, s = before ++ search.
Proof.
  unfold endsWith. rewrite andb_true_iff, Nat.leb_le, String.eqb_eq. split.
  - intros [Hle E].
    destruct (stdlib_substring_split s (String.length s - String.length search))
      as (a & Ea & _); [lia|].
    replace (String.length s - (String.length s - String.length search))
      with (String.length search) in Ea by lia.
    rewrite E in Ea. exists a. exact Ea.
  - intros [before ->]. rewrite append_length. split; [lia|].
    replace (String.length before + String.length search - String.length search)
      with (String.length before) by lia.
    rewrite stdlib_substring_skip. apply stdlib_substring_all.
Qed.

End JsStringFacts.

(** ** The static path classifier *)

Module Classifier.
Import JsStringFacts.

Lemma isStaticFile_true (p : string) :
  isStaticFile p = true <->
  (exists marker, In marker FRAMEWORK_MARKERS /\ includes p marker = true) \/
  (exists ext, In ext STATIC_EXTENSIONS /\ endsWith p ext = true).
Proof.
  unfold isStaticFile, FRAMEWORK_MARKERS, STATIC_EXTENSIONS.
  repeat rewrite orb_true_iff. simpl. split.
  - intros [[[[[[H|H]|H]|H]|H]|H]|H];
      first [ left; eexists; split; [|exact H]; simpl; tauto
            | right; eexists; split; [|exact H]; simpl; tauto ].
  - intros [(m & [<-|[<-|[]]] & H) | (e & [<-|[<-|[<-|[<-|[<-|[]]]]]] & H)];
      tauto.
Qed.

Lemma matchesRoute_true (p route : string) :
  matchesRoute p route = true <-> exists rest, p = route ++ rest.
Proof.
  unfold matchesRoute. rewrite orb_true_iff, String.eqb_eq, startsWith_iff.
  split.
  - intros [->|H]; [|exact H]. exists "". now rewrite append_empty_r.
  - intros H. now right.
Qed.

Lemma isPublicRoute_true (p : string) :
  isPublicRoute p = true <->
  exists route rest, In route PUBLIC_ROUTES /\ p = route ++ rest.
Proof.
  unfold isPublicRoute. rewrite existsb_exists. split.
  - intros (route & Hin & H). apply matchesRoute_true in H.
    destruct H as [rest ->]. eauto.
  - intros (route & rest & Hin & ->). exists route. split; [exact Hin|].
    apply matchesRoute_true. eauto.
Qed.

(** The boolean classifier of the source decides the rules above. *)
Lemma isExempt_iff (p : string) : isExempt p = true <-> Exempt p.
Proof.
  unfold isExempt.
  rewrite orb_true_iff, isStaticFile_true, isPublicRoute_true. split.
  - intros [[(m & Hin & H)|(e & Hin & H)]|(route & rest & Hin & ->)].
    + apply includes_iff in H. destruct H as (before & after & ->).
      eapply ExemptMarker; eauto.
    + apply endsWith_iff in H. destruct H as (before & ->).
      eapply ExemptAsset; eauto.
    + eapply ExemptPublic; eauto.
  - intros [m before after Hin ->|e before Hin ->|route rest Hin ->].
    + left. left. exists m. split; [exact Hin|]. apply includes_iff. eauto.
    + left. right. exists e. split; [exact Hin|]. apply endsWith_iff. eauto.
    + right. eauto.
Qed.

(** The slash alone is a public route, and a prefix of every pathname that
    begins with one. *)
Lemma slash_is_public (p : string) :
  startsWith p "/" = true -> isPublicRoute p = true.
Proof.
  intros H. unfold isPublicRoute, PUBLIC_ROUTES, matchesRoute. simpl existsb.
  rewrite H. rewrite orb_true_r. reflexivity.
Qed.

Lemma middleware_exempt RP V (req : NextRequest) :
  isExempt (pathname req) = true -> middleware RP V req = Next [].
Proof.
  unfold isExempt, middleware. intros H.
  destruct (isStaticFile (pathname req)); [reflexivity|].
  simpl in H. now rewrite H.
Qed.

Lemma middleware_not_exempt RP V (req : NextRequest) :
  isExempt (pathname req) = false ->
  middleware RP V req = authenticate RP V req.
Proof.
  unfold isExempt, middleware. intros H. apply orb_false_iff in H.
  destruct H as [-> ->]. reflexivity.
Qed.

End Classifier.

(** ** Claims about the classifier *)

Section ClassifierClaims.
Import JsStringFacts Classifier.

Variable ROUTE_PERMISSIONS : RoutePermissions.
Variable verifyToken : string -> option TokenPayload.

(** C1: every request whose pathname begins with a slash is classified
    public, because ["/"] is an entry of [PUBLIC_ROUTES] and matching is by
    raw string prefix; the middleware answers it with a plain
    [NextResponse.next()] without identity headers, whatever the headers,
    the cookies and the verifier are. *)
Theorem slash_paths_pass_through (req : NextRequest) :
  startsWith (pathname req) "/" = true ->
  In "/" PUBLIC_ROUTES /\
  isPublicRoute (pathname req) = true /\
  middleware ROUTE_PERMISSIONS verifyToken req = Next [].
Proof.
  intros H. split; [now left|].
  pose proof (slash_is_public _ H) as P. split; [exact P|].
  apply middleware_exempt. unfold isExempt. rewrite P. apply orb_true_r.
Qed.

(** C4: a path classified exempt (framework marker, static-asset extension,
    or a public route as raw string prefix) is allowed unconditionally: for
    every request on it, with or without credential, valid or not, the
    middleware returns [NextResponse.next()]. *)
Theorem exempt_paths_allowed (req : NextRequest) :
  Exempt (pathname req) ->
  middleware ROUTE_PERMISSIONS verifyToken req = Next [].
Proof.
  intros H. apply middleware_exempt. now apply isExempt_iff.
Qed.

End ClassifierClaims.

Lemma slash_paths_pass_through_witness :
  In "/" PUBLIC_ROUTES /\
  isPublicRoute "/api/admin/stats" = true /\
  middleware [] (fun _ => None)
    (mkRequest "/api/admin/stats" (Some "Bearer forged") None) = Next [].
Proof.
  apply (slash_paths_pass_through [] (fun _ => None)
           (mkRequest "/api/admin/stats" (Some "Bearer forged") None)).
  reflexivity.
Defined.

Lemma exempt_paths_allowed_witness :
  middleware [] rejectAll (mkRequest "/workersX" None None) = Next [] /\
  middleware [] rejectAll
    (mkRequest "/workers/registerX" None (Some "expired")) = Next [] /\
  middleware [] rejectAll
    (mkRequest "/reports/summary.png" (Some "Bearer forged") None) = Next [].
Proof.
  split; [|split].
  - apply (exempt_paths_allowed [] rejectAll (mkRequest "/workersX" None None)).
    apply (ExemptPublic _ "/" "workersX"); [simpl; tauto | reflexivity].
  - apply (exempt_paths_allowed [] rejectAll
             (mkRequest "/workers/registerX" None (Some "expired"))).
    apply (ExemptPublic _ "/workers/register" "X"); [simpl; tauto | reflexivity].
  - apply (exempt_paths_allowed [] rejectAll
             (mkRequest "/reports/summary.png" (Some "Bearer forged") None)).
    apply (ExemptAsset _ ".png" "/reports/summary"); [simpl; tauto | reflexivity].
Defined.

(** ** The permission resolver *)

Module Resolver.
Import JsStringFacts.

Lemma lookupRoute_None (table : RoutePermissions) (p : string) :
  lookupRoute table p = None <-> ~ In p (routePatterns table).
Proof.
  induction table as [|[k ps] table IH]; simpl.
  - tauto.
  - destruct (String.eqb_spec p k) as [->|ne].
    + split; [discriminate | intros H; elim H; now left].
    + rewrite IH. split; [intros H [E|I]; [now elim ne | now elim H] | tauto].
Qed.

(** An object has one value per key: with distinct keys the lookup finds
    the entry wherever it is declared. *)
Lemma lookupRoute_In (table : RoutePermissions) (p : string) (perms : list string) :
  NoDup (routePatterns table) -> In (p, perms) table ->
  lookupRoute table p = Some perms.
Proof.
  induction table as [|[k ps] table IH]; simpl; intros ND Hin; [tauto|].
  inversion ND as [|? ? Hk ND']; subst.
  destruct Hin as [E|Hin].
  - inversion E; subst. now rewrite String.eqb_refl.
  - destruct (String.eqb_spec p k) as [->|ne].
    + elim Hk. change k with (fst (k, perms)). now apply in_map.
    + now apply IH.
Qed.

Lemma firstPrefixMatch_skip (before rest : RoutePermissions) (p : string) :
  (forall k ps, In (k, ps) before -> startsWith p k = false) ->
  firstPrefixMatch (before ++ rest)%list p = firstPrefixMatch rest p.
Proof.
  induction before as [|[k ps] before IH]; simpl; intros H; [reflexivity|].
  rewrite (H k ps) by now left. apply IH. intros k' ps' I. apply (H k' ps').
  now right.
Qed.

Lemma firstPrefixMatch_None (table : RoutePermissions) (p : string) :
  (forall k ps, In (k, ps) table -> startsWith p k = false) ->
  firstPrefixMatch table p = None.
Proof.
  intros H. rewrite <- (app_nil_r table). now rewrite firstPrefixMatch_skip.
Qed.

(** A key equal to the path is in particular a prefix of it. *)
Lemma no_prefix_no_key (table : RoutePermissions) (p : string) :
  (forall k ps, In (k, ps) table -> startsWith p k = false) ->
  lookupRoute table p = None.
Proof.
  intros H. apply lookupRoute_None. unfold routePatterns.
  rewrite in_map_iff. intros ([k ps] & E & I). simpl in E. subst k.
  specialize (H p ps I). now rewrite startsWith_refl in H.
Qed.

End Resolver.

Section ResolverClaims.
Import JsStringFacts Resolver.

Variable ROUTE_PERMISSIONS : RoutePermissions.

(** C5: for a path that is an exact key of the permission table the
    resolver returns that entry's permissions, whatever else (an earlier
    prefix entry, a structural rule) matches the path too. *)
Theorem exact_match_takes_precedence (p : string) (perms : list string) :
  NoDup (routePatterns ROUTE_PERMISSIONS) ->
  In (p, perms) ROUTE_PERMISSIONS ->
  getRoutePermissions ROUTE_PERMISSIONS p = perms.
Proof.
  intros ND Hin. unfold getRoutePermissions.
  now rewrite (lookupRoute_In _ _ _ ND Hin).
Qed.

(** C6: for a path that is no key of the table, the resolver returns the
    permissions of the first entry, in declaration order, whose key is a
    string prefix of the path, whatever entries follow it. *)
Theorem first_prefix_match_wins
    (p key : string) (perms : list string) (before after : RoutePermissions) :
  ~ In p (routePatterns ROUTE_PERMISSIONS) ->
  ROUTE_PERMISSIONS = (before ++ (key, perms) :: after)%list ->
  (forall k ps, In (k, ps) before -> startsWith p k = false) ->
  startsWith p key = true ->
  getRoutePermissions ROUTE_PERMISSIONS p = perms.
Proof.
  intros Hkey E Hbefore Hpre. unfold getRoutePermissions.
  apply lookupRoute_None in Hkey. rewrite Hkey, E.
  rewrite (firstPrefixMatch_skip _ _ _ Hbefore). simpl. now rewrite Hpre.
Qed.

(** C7: with no entry of the table equal to or a prefix of the path, a path
    under [/api/workers/] resolves to the document pair when it contains
    [/documents] and to the profile pair when it does not. *)
Theorem worker_paths_structural_rule (p : string) :
  (forall k ps, In (k, ps) ROUTE_PERMISSIONS ->
                p <> k /\ startsWith p k = false) ->
  startsWith p "/api/workers/" = true ->
  (includes p "/documents" = true ->
   getRoutePermissions ROUTE_PERMISSIONS p =
     ["read:own_documents"; "read:patient_documents"]) /\
  (includes p "/documents" = false ->
   getRoutePermissions ROUTE_PERMISSIONS p =
     ["read:own_profile"; "read:patient_profiles"]).
Proof.
  intros Hno Hw.
  assert (Hno' : forall k ps, In (k, ps) ROUTE_PERMISSIONS ->
                              startsWith p k = false)
    by (intros k ps I; apply (Hno k ps I)).
  unfold getRoutePermissions.
  rewrite (no_prefix_no_key _ _ Hno'), (firstPrefixMatch_None _ _ Hno').
  unfold structuralPermissions. rewrite Hw.
  split; intros ->; reflexivity.
Qed.

End ResolverClaims.

Lemma exact_match_takes_precedence_witness :
  firstPrefixMatch overlappingTable "/api/workers/me" = Some ["manage:workers"] /\
  structuralPermissions "/api/workers/me" =
    ["read:own_profile"; "read:patient_profiles"] /\
  getRoutePermissions overlappingTable "/api/workers/me" = ["read:own_profile"].
Proof.
  split; [reflexivity|]. split; [reflexivity|].
  apply (exact_match_takes_precedence overlappingTable "/api/workers/me").
  - unfold routePatterns, overlappingTable. simpl.
    repeat constructor; simpl; intuition discriminate.
  - simpl. tauto.
Defined.

Lemma first_prefix_match_wins_witness :
  startsWith "/api/admin/audit/2024" "/api/admin/audit" = true /\
  getRoutePermissions overlappingTable "/api/admin/audit/2024" = ["read:all_users"].
Proof.
  split; [reflexivity|].
  apply (first_prefix_match_wins overlappingTable "/api/admin/audit/2024"
           "/api/admin" ["read:all_users"]
           [ ("/api/workers/", ["manage:workers"]);
             ("/api/workers/me", ["read:own_profile"]) ]
           [ ("/api/admin/audit", ["read:audit_log"]) ]).
  - unfold routePatterns, overlappingTable. simpl. intuition discriminate.
  - reflexivity.
  - simpl. intros k ps [E|[E|[]]]; inversion E; reflexivity.
  - reflexivity.
Defined.

Lemma worker_paths_structural_rule_witness :
  getRoutePermissions [("/api/admin", ["read:all_users"])]
    "/api/workers/42/documents" =
    ["read:own_documents"; "read:patient_documents"] /\
  getRoutePermissions [("/api/admin", ["read:all_users"])]
    "/api/workers/42" =
    ["read:own_profile"; "read:patient_profiles"].
Proof.
  split.
  - apply (worker_paths_structural_rule [("/api/admin", ["read:all_users"])]
             "/api/workers/42/documents").
    + simpl. intros k ps [E|[]]. inversion E. split; [discriminate | reflexivity].
    + reflexivity.
    + reflexivity.
  - apply (worker_paths_structural_rule [("/api/admin", ["read:all_users"])]
             "/api/workers/42").
    + simpl. intros k ps [E|[]]. inversion E. split; [discriminate | reflexivity].
    + reflexivity.
    + reflexivity.
Defined.

(** ** The decision engine behind the exemption checks *)

Module Decision.
Import JsStringFacts Classifier.

Lemma credentialAbsent_extractToken (req : NextRequest) :
  credentialAbsent req -> extractToken req = None.
Proof.
  intros [Hh Hc]. unfold extractToken, cookieToken. rewrite Hc.
  destruct (authorization req) as [h|]; [|reflexivity].
  rewrite (Hh h eq_refl). now rewrite andb_false_r.
Qed.

Lemma unauthenticated_api (p message : string) :
  startsWith p "/api/" = true -> unauthenticated p message = Json 401 message.
Proof. unfold unauthenticated. now intros ->. Qed.

Lemma unauthenticated_web (p message : string) :
  startsWith p "/api/" = false ->
  unauthenticated p message = Redirect (mkURL "/auth/login" [("redirect", p)]).
Proof. unfold unauthenticated. now intros ->. Qed.


Lemma truthy_true (s : string) : truthy s = true <-> s <> "".
Proof. destruct s; simpl; split; congruence. Qed.

Section Stage.
Variable ROUTE_PERMISSIONS : RoutePermissions.
Variable verifyToken : string -> option TokenPayload.

(** Lines 58-70, as written. *)
Lemma authenticate_no_credential (req : NextRequest) :
  credentialAbsent req ->
  authenticate ROUTE_PERMISSIONS verifyToken req =
    unauthenticated (pathname req) "Authentication required".
Proof.
  intros H. unfold authenticate.
  now rewrite (credentialAbsent_extractToken _ H).
Qed.

(** Lines 72-85, as written. *)
Lemma authenticate_invalid_token (req : NextRequest) (t : string) :
  extractToken req = Some t -> t <> "" -> verifyToken t = None ->
  authenticate ROUTE_PERMISSIONS verifyToken req =
    unauthenticated (pathname req) "Invalid or expired token".
Proof.
  intros E Ht Hv. unfold authenticate.
  apply truthy_true in Ht. now rewrite E, Ht, Hv.
Qed.

Lemma existsb_hasString_false (held required : list string) :
  (forall perm, In perm required -> ~ In perm held) ->
  existsb (hasString held) required = false.
Proof.
  intros H. apply not_true_is_false. intros E.
  apply existsb_exists in E. destruct E as (perm & Hr & Hh).
  unfold hasString in Hh. apply existsb_exists in Hh.
  destruct Hh as (x & Hx & Ex). apply String.eqb_eq in Ex. subst x.
  exact (H perm Hr Hx).
Qed.

(** Lines 101-121, as written: any-of semantics over the requirement. *)
Lemma authorize_insufficient (p : string) (payload : TokenPayload) :
  isAuthOnlyRoute p = false ->
  getRoutePermissions ROUTE_PERMISSIONS p <> [] ->
  (forall perm, In perm (getRoutePermissions ROUTE_PERMISSIONS p) ->
                ~ In perm (permissions payload)) ->
  authorize ROUTE_PERMISSIONS p payload =
    if startsWith p "/api/" then Json 403 "Insufficient permissions"
    else Redirect (mkURL (getDashboardUrl (role payload)) []).
Proof.
  intros Ha Hne Hno. unfold authorize. rewrite Ha.
  rewrite (existsb_hasString_false _ _ Hno).
  destruct (getRoutePermissions ROUTE_PERMISSIONS p); [now elim Hne|].
  reflexivity.
Qed.

End Stage.

(** The role-to-dashboard switch. *)
Lemma getDashboardUrl_cases (r : string) :
  getDashboardUrl "worker" = "/workers/dashboard" /\
  getDashboardUrl "doctor" = "/doctors" /\
  getDashboardUrl "admin" = "/admin" /\
  (r <> "worker" -> r <> "doctor" -> r <> "admin" -> getDashboardUrl r = "/").
Proof.
  repeat split; try reflexivity. intros Hw Hd Ha. unfold getDashboardUrl.
  apply String.eqb_neq in Hw, Hd, Ha. now rewrite Hw, Hd, Ha.
Qed.

End Decision.

(** ** Claims about the decision engine *)

Section DecisionClaims.
Import JsStringFacts Classifier Decision.

Variable ROUTE_PERMISSIONS : RoutePermissions.
Variable verifyToken : string -> option TokenPayload.

(** C2, where the code departs from it: [/api/workers/1] is an API path and
    the request carries no credential, yet the middleware answers with
    [NextResponse.next()], not with status 401: the path starts with the
    public route ["/"].  The credential check of lines 58-63, which would
    answer 401 with "Authentication required", is never reached. *)
Theorem api_without_credential_is_let_through :
  startsWith "/api/workers/1" "/api/" = true /\
  credentialAbsent (mkRequest "/api/workers/1" None None) /\
  middleware ROUTE_PERMISSIONS verifyToken
    (mkRequest "/api/workers/1" None None) = Next [] /\
  authenticate ROUTE_PERMISSIONS verifyToken
    (mkRequest "/api/workers/1" None None) =
    Json 401 "Authentication required".
Proof.
  split; [reflexivity|]. split; [|split; reflexivity].
  split; [discriminate | reflexivity].
Qed.

(** C3, where the code departs from it: [/workers/dashboard] is not an API
    path; without credential, and with a cookie the verifier rejects, the
    middleware answers with [NextResponse.next()], not with a redirect to
    [/auth/login]: the path starts with the public route ["/"].  The
    redirects of lines 64-69 and 80-84 are never reached. *)
Theorem web_without_credential_is_let_through :
  startsWith "/workers/dashboard" "/api/" = false /\
  middleware ROUTE_PERMISSIONS verifyToken
    (mkRequest "/workers/dashboard" None None) = Next [] /\
  middleware ROUTE_PERMISSIONS rejectAll
    (mkRequest "/workers/dashboard" None (Some "expired")) = Next [] /\
  authenticate ROUTE_PERMISSIONS verifyToken
    (mkRequest "/workers/dashboard" None None) =
    Redirect (mkURL "/auth/login" [("redirect", "/workers/dashboard")]) /\
  authenticate ROUTE_PERMISSIONS rejectAll
    (mkRequest "/workers/dashboard" None (Some "expired")) =
    Redirect (mkURL "/auth/login" [("redirect", "/workers/dashboard")]).
Proof. repeat split. Qed.


End DecisionClaims.

(** C8, where the code departs from it: a worker holding only
    [read:own_profile] asks for [/api/admin/stats], which resolves to
    [read:all_users], and for the web route [/admin/users] under a table that
    guards [/admin]; the middleware answers both with [NextResponse.next()],
    not with status 403 nor with a redirect to the worker dashboard: both
    paths start with the public route ["/"].  The permission check of lines
    104-121 is never reached. *)
Theorem worker_on_admin_path_is_let_through :
  getRoutePermissions [] "/api/admin/stats" = ["read:all_users"] /\
  middleware [] acceptAsWorker
    (mkRequest "/api/admin/stats" (Some "Bearer worker-token") None) = Next [] /\
  authenticate [] acceptAsWorker
    (mkRequest "/api/admin/stats" (Some "Bearer worker-token") None) =
    Json 403 "Insufficient permissions" /\
  getRoutePermissions [("/admin", ["read:all_users"])] "/admin/users" =
    ["read:all_users"] /\
  middleware [("/admin", ["read:all_users"])] acceptAsWorker
    (mkRequest "/admin/users" None (Some "worker-token")) = Next [] /\
  authenticate [("/admin", ["read:all_users"])] acceptAsWorker
    (mkRequest "/admin/users" None (Some "worker-token")) =
    Redirect (mkURL "/workers/dashboard" []).
Proof. repeat split. Qed.


(** With the verifier rejecting the token, the bearer request is answered
    with the invalid-token error by the code behind the exemption checks,
    although its cookie is set. *)
Example bearer_request_is_verified :
  authenticate [] rejectAll bearerRequest = Json 401 "Invalid or expired token".
Proof. reflexivity. Qed.

(** ** The store model agrees with the pure one and only ever grows *)

Module SharedFacts.

Lemma extends_refl (st : Shared.Store) : Shared.extends st st.
Proof. split; [reflexivity|]. exists []. now rewrite app_nil_r. Qed.

Lemma extends_trans (st1 st2 st3 : Shared.Store) :
  Shared.extends st1 st2 -> Shared.extends st2 st3 -> Shared.extends st1 st3.
Proof.
  intros [P1 [f1 A1]] [P2 [f2 A2]]. split; [congruence|].
  exists (f1 ++ f2)%list. now rewrite A2, A1, app_assoc.
Qed.

Lemma extends_nth_error (st st' : Shared.Store) (a : Shared.ref) :
  Shared.extends st st' -> a < List.length (Shared.arrays st) ->
  nth_error (Shared.arrays st') a = nth_error (Shared.arrays st) a.
Proof. intros [_ [f ->]] H. now apply nth_error_app1. Qed.

Lemma extends_nth (st st' : Shared.Store) (a : Shared.ref) :
  Shared.extends st st' -> a < List.length (Shared.arrays st) ->
  nth a (Shared.arrays st') [] = nth a (Shared.arrays st) [].
Proof. intros [_ [f ->]] H. now apply app_nth1. Qed.

Lemma extends_length (st st' : Shared.Store) :
  Shared.extends st st' ->
  List.length (Shared.arrays st) <= List.length (Shared.arrays st').
Proof. intros [_ [f ->]]. rewrite length_app. lia. Qed.

Lemma extends_loaded (env : Shared.Env) (st st' : Shared.Store) :
  Shared.loaded env st -> Shared.extends st st' -> Shared.loaded env st'.
Proof.
  intros [Hp Ha Ht] E. pose proof (extends_length _ _ E) as L. split.
  - rewrite (extends_nth_error _ _ _ E); [exact Hp|].
    apply nth_error_Some. congruence.
  - rewrite (extends_nth_error _ _ _ E); [exact Ha|].
    apply nth_error_Some. congruence.
  - destruct E as [-> _]. intros k r I. specialize (Ht k r I). lia.
Qed.

Lemma extends_tableOf (env : Shared.Env) (st st' : Shared.Store) :
  Shared.loaded env st -> Shared.extends st st' ->
  Shared.tableOf st' = Shared.tableOf st.
Proof.
  intros [_ _ Ht] E. unfold Shared.tableOf.
  destruct E as [P E]. rewrite P. apply map_ext_in. intros [k r] I. simpl.
  f_equal. apply extends_nth; [split; [exact P | exact E]|].
  exact (Ht k r I).
Qed.

Lemma loaded_public (env : Shared.Env) (st : Shared.Store) :
  Shared.loaded env st ->
  nth (Shared.PUBLIC_ROUTES_at env) (Shared.arrays st) [] = PUBLIC_ROUTES.
Proof. intros [Hp _ _]. now apply nth_error_nth. Qed.

Lemma loaded_authOnly (env : Shared.Env) (st : Shared.Store) :
  Shared.loaded env st ->
  nth (Shared.AUTH_ONLY_ROUTES_at env) (Shared.arrays st) [] = AUTH_ONLY_ROUTES.
Proof. intros [_ Ha _]. now apply nth_error_nth. Qed.

Lemma lookupRef_table (heap : list (list string))
    (props : list (string * Shared.ref)) (p : string) :
  lookupRoute (map (fun prop => (fst prop, nth (snd prop) heap [])) props) p =
  option_map (fun r => nth r heap []) (Shared.lookupRef props p).
Proof.
  induction props as [|[k r] props IH]; simpl; [reflexivity|].
  destruct (String.eqb p k); [reflexivity | exact IH].
Qed.

Lemma firstPrefixRef_table (heap : list (list string))
    (props : list (string * Shared.ref)) (p : string) :
  firstPrefixMatch (map (fun prop => (fst prop, nth (snd prop) heap [])) props) p =
  option_map (fun r => nth r heap []) (Shared.firstPrefixRef props p).
Proof.
  induction props as [|[k r] props IH]; simpl; [reflexivity|].
  destruct (startsWith p k); [reflexivity | exact IH].
Qed.

(** The resolver allocates exactly one array, holding what the pure resolver
    returns, and hands out its address: the next free one. *)
Lemma getRoutePermissions_fresh (st : Shared.Store) (p : string) :
  Shared.getRoutePermissions p st =
  (List.length (Shared.arrays st),
   Shared.mkStore
     (Shared.arrays st ++ [getRoutePermissions (Shared.tableOf st) p])%list
     (Shared.routePermissions st)).
Proof.
  unfold Shared.getRoutePermissions, getRoutePermissions, Shared.tableOf,
    Shared.bind, Shared.entries, Shared.spread, Shared.bind, Shared.readArray,
    Shared.newArray.
  rewrite lookupRef_table, firstPrefixRef_table.
  destruct (Shared.lookupRef (Shared.routePermissions st) p); simpl;
    [reflexivity|].
  destruct (Shared.firstPrefixRef (Shared.routePermissions st) p); reflexivity.
Qed.

Lemma newArray_extends (st : Shared.Store) (elements : list string) :
  Shared.extends st
    (Shared.mkStore (Shared.arrays st ++ [elements])%list
                    (Shared.routePermissions st)).
Proof. split; [reflexivity|]. now exists [elements]. Qed.

Lemma bind_readArray {B} (r : Shared.ref) (k : list string -> Shared.M B)
    (st : Shared.Store) :
  Shared.bind (Shared.readArray r) k st = k (nth r (Shared.arrays st) []) st.
Proof. reflexivity. Qed.

Lemma bind_run {A B} (m : Shared.M A) (k : A -> Shared.M B) (st : Shared.Store) :
  Shared.bind m k st = k (fst (m st)) (snd (m st)).
Proof. unfold Shared.bind. now destruct (m st). Qed.

Lemma ret_sim {A} (a : A) (st : Shared.Store) :
  fst (Shared.ret a st) = a /\ Shared.extends st (snd (Shared.ret a st)).
Proof. split; [reflexivity | apply extends_refl]. Qed.

Lemma ret_after {A} (a : A) (st st' : Shared.Store) :
  Shared.extends st st' ->
  fst (Shared.ret a st') = a /\ Shared.extends st (snd (Shared.ret a st')).
Proof. intros E. split; [reflexivity | exact E]. Qed.

Lemma authorize_sim (env : Shared.Env) (st : Shared.Store)
    (p : string) (payload : TokenPayload) :
  Shared.loaded env st ->
  fst (Shared.authorize env p payload st) =
    authorize (Shared.tableOf st) p payload /\
  Shared.extends st (snd (Shared.authorize env p payload st)).
Proof.
  intros L. unfold Shared.authorize, authorize.
  rewrite bind_readArray, (loaded_authOnly _ _ L).
  fold (isAuthOnlyRoute p). destruct (isAuthOnlyRoute p); [apply ret_sim|].
  rewrite bind_run, getRoutePermissions_fresh. cbn [fst snd].
  rewrite bind_readArray. cbn [Shared.arrays]. rewrite nth_middle.
  set (required := getRoutePermissions (Shared.tableOf st) p).
  pose proof (newArray_extends st required) as E.
  destruct (Nat.ltb 0 (List.length required)); [|now apply ret_after].
  destruct (negb (existsb (hasString (permissions payload)) required));
    [|now apply ret_after].
  destruct (startsWith p "/api/"); now apply ret_after.
Qed.

Lemma authenticate_sim (env : Shared.Env) (V : string -> option TokenPayload)
    (st : Shared.Store) (req : NextRequest) :
  Shared.loaded env st ->
  fst (Shared.authenticate env V req st) =
    authenticate (Shared.tableOf st) V req /\
  Shared.extends st (snd (Shared.authenticate env V req st)).
Proof.
  intros L. unfold Shared.authenticate, authenticate, afterVerify.
  destruct (extractToken req) as [token|]; [|apply ret_sim].
  destruct (truthy token); [|apply ret_sim].
  destruct (V token) as [payload|]; [|apply ret_sim].
  now apply authorize_sim.
Qed.

Lemma middleware_sim (env : Shared.Env) (V : string -> option TokenPayload)
    (st : Shared.Store) (req : NextRequest) :
  Shared.loaded env st ->
  fst (Shared.middleware env V req st) = middleware (Shared.tableOf st) V req /\
  Shared.extends st (snd (Shared.middleware env V req st)).
Proof.
  intros L. unfold Shared.middleware, middleware.
  destruct (isStaticFile (pathname req)); [apply ret_sim|].
  rewrite bind_readArray, (loaded_public _ _ L).
  fold (isPublicRoute (pathname req)).
  destruct (isPublicRoute (pathname req)); [apply ret_sim|].
  now apply authenticate_sim.
Qed.

(** The decision consults the verifier on the extracted credential only. *)
Lemma middleware_verifier_agree (table : RoutePermissions)
    (V1 V2 : string -> option TokenPayload) (req : NextRequest) :
  (forall token, extractToken req = Some token -> V1 token = V2 token) ->
  middleware table V1 req = middleware table V2 req.
Proof.
  intros H. unfold middleware, authenticate.
  destruct (isStaticFile (pathname req)); [reflexivity|].
  destruct (isPublicRoute (pathname req)); [reflexivity|].
  destruct (extractToken req) as [token|]; [|reflexivity].
  now rewrite (H token eq_refl).
Qed.

End SharedFacts.

(** ** Repeatability of a decision *)

(** C10: evaluating the middleware twice on the same request, the second time
    on the store the first evaluation left and with a verifier that gives
    the same outcome on the request's credential, yields the same response;
    that response is the pure function [middleware] of the request, the
    permission table and the verifier; the evaluation leaves the properties
    of [ROUTE_PERMISSIONS] and every array of the store as they were; and the
    array the resolver returns is a new one, not an array of the table. *)
Theorem evaluation_is_repeatable
    (env : Shared.Env) (st : Shared.Store)
    (V1 V2 : string -> option TokenPayload) (req : NextRequest) :
  Shared.loaded env st ->
  (forall token, extractToken req = Some token -> V1 token = V2 token) ->
  fst (Shared.middleware env V2 req (snd (Shared.middleware env V1 req st))) =
    fst (Shared.middleware env V1 req st) /\
  fst (Shared.middleware env V1 req st) =
    middleware (Shared.tableOf st) V1 req /\
  Shared.routePermissions (snd (Shared.middleware env V1 req st)) =
    Shared.routePermissions st /\
  (forall a, a < List.length (Shared.arrays st) ->
     nth_error (Shared.arrays (snd (Shared.middleware env V1 req st))) a =
     nth_error (Shared.arrays st) a) /\
  (forall p,
     fst (Shared.getRoutePermissions p st) = List.length (Shared.arrays st) /\
     nth_error (Shared.arrays (snd (Shared.getRoutePermissions p st)))
               (fst (Shared.getRoutePermissions p st)) =
       Some (getRoutePermissions (Shared.tableOf st) p)).
Proof.
  intros L HV.
  destruct (SharedFacts.middleware_sim env V1 st req L) as [D1 E1].
  pose proof (SharedFacts.extends_loaded _ _ _ L E1) as L1.
  destruct (SharedFacts.middleware_sim env V2 _ req L1) as [D2 _].
  split; [|split; [exact D1|split; [exact (proj1 E1)|split]]].
  - rewrite D2, D1, (SharedFacts.extends_tableOf _ _ _ L E1).
    symmetry. now apply SharedFacts.middleware_verifier_agree.
  - intros a Ha. now apply SharedFacts.extends_nth_error.
  - intros p. rewrite SharedFacts.getRoutePermissions_fresh. cbn [fst snd].
    split; [reflexivity|]. cbn [Shared.arrays].
    rewrite nth_error_app2 by lia. now rewrite Nat.sub_diag.
Qed.

Lemma evaluation_is_repeatable_witness :
  fst (Shared.middleware demoEnv acceptAsWorker demoRequest
         (snd (Shared.middleware demoEnv acceptAsWorker demoRequest demoStore))) =
    fst (Shared.middleware demoEnv acceptAsWorker demoRequest demoStore) /\
  fst (Shared.middleware demoEnv acceptAsWorker demoRequest demoStore) =
    middleware (Shared.tableOf demoStore) acceptAsWorker demoRequest /\
  Shared.routePermissions
    (snd (Shared.middleware demoEnv acceptAsWorker demoRequest demoStore)) =
    Shared.routePermissions demoStore /\
  (forall a, a < List.length (Shared.arrays demoStore) ->
     nth_error
       (Shared.arrays
          (snd (Shared.middleware demoEnv acceptAsWorker demoRequest demoStore))) a =
     nth_error (Shared.arrays demoStore) a) /\
  (forall p,
     fst (Shared.getRoutePermissions p demoStore) =
       List.length (Shared.arrays demoStore) /\
     nth_error (Shared.arrays (snd (Shared.getRoutePermissions p demoStore)))
               (fst (Shared.getRoutePermissions p demoStore)) =
       Some (getRoutePermissions (Shared.tableOf demoStore) p)).
Proof.
  apply (evaluation_is_repeatable demoEnv demoStore acceptAsWorker acceptAsWorker
           demoRequest).
  - split; [reflexivity | reflexivity |].
    intros k r [E|[]]. inversion E. simpl. lia.
  - reflexivity.
Defined.

(** On that store the first evaluation allocates the resolver's copy and
    answers with the worker's identity headers. *)
Example demo_first_evaluation :
  Shared.middleware demoEnv acceptAsWorker demoRequest demoStore =
  (Next [ ("x-user-id", "w-17"); ("x-user-role", "worker");
          ("x-user-email", "w17@example.org") ],
   Shared.mkStore
     [ PUBLIC_ROUTES; AUTH_ONLY_ROUTES;
       ["read:own_profile"; "read:patient_profiles"];
       ["read:own_profile"; "read:patient_profiles"] ]
     [ ("api/records", 2) ]).
Proof. reflexivity. Qed.

(** ** Further facts about the gateway *)

Module GatewayFacts.
Import JsStringFacts Classifier Decision.

Lemma not_exempt_not_slash (p : string) :
  isExempt p = false -> startsWith p "/" = false.
Proof.
  intros H. apply not_true_is_false. intros S.
  apply slash_is_public in S. unfold isExempt in H. rewrite S in H.
  now rewrite orb_true_r in H.
Qed.

(** A path behind the exemption checks is no API path. *)
Lemma not_exempt_not_api (p : string) :
  isExempt p = false -> startsWith p "/api/" = false.
Proof.
  intros H. apply not_true_is_false. intros S.
  apply (startsWith_shorter p "/" "api/") in S.
  now rewrite (not_exempt_not_slash _ H) in S.
Qed.

Lemma authOnly_is_public (p : string) :
  isAuthOnlyRoute p = true -> isPublicRoute p = true.
Proof.
  unfold isAuthOnlyRoute, AUTH_ONLY_ROUTES. simpl existsb.
  rewrite orb_false_r. intros H. apply matchesRoute_true in H.
  destruct H as [rest ->]. apply slash_is_public. reflexivity.
Qed.

Lemma not_exempt_not_authOnly (p : string) :
  isExempt p = false -> isAuthOnlyRoute p = false.
Proof.
  intros H. apply not_true_is_false. intros A.
  apply authOnly_is_public in A. unfold isExempt in H. rewrite A in H.
  now rewrite orb_true_r in H.
Qed.

Lemma getDashboardUrl_slash (r : string) :
  startsWith (getDashboardUrl r) "/" = true.
Proof.
  unfold getDashboardUrl.
  destruct (String.eqb r "worker"); [reflexivity|].
  destruct (String.eqb r "doctor"); [reflexivity|].
  destruct (String.eqb r "admin"); reflexivity.
Qed.

Lemma lookupRoute_Some (table : RoutePermissions) (p : string)
    (perms : list string) :
  lookupRoute table p = Some perms -> In (p, perms) table.
Proof.
  induction table as [|[k ps] table IH]; simpl; [discriminate|].
  destruct (String.eqb_spec p k) as [->|_].
  - intros E. inversion E. now left.
  - intros E. right. now apply IH.
Qed.

Lemma firstPrefixMatch_Some (table : RoutePermissions) (p : string)
    (perms : list string) :
  firstPrefixMatch table p = Some perms ->
  exists k, In (k, perms) table /\ startsWith p k = true.
Proof.
  induction table as [|[k ps] table IH]; simpl; [discriminate|].
  destruct (startsWith p k) eqn:S.
  - intros E. inversion E. subst. exists k. split; [now left | exact S].
  - intros E. destruct (IH E) as (k' & I & S'). exists k'. split; [now right | exact S'].
Qed.

Lemma firstPrefixMatch_None_inv (table : RoutePermissions) (p : string) :
  firstPrefixMatch table p = None ->
  forall k ps, In (k, ps) table -> startsWith p k = false.
Proof.
  induction table as [|[k ps] table IH]; simpl; [tauto|].
  destruct (startsWith p k) eqn:S; [discriminate|].
  intros E k' ps' [I|I]; [inversion I; now subst | now apply (IH E k' ps')].
Qed.

(** Any-of: the boolean test of lines 105-107 against its meaning. *)
Lemma hasPermission_true (held required : list string) :
  existsb (hasString held) required = true <->
  exists perm, In perm required /\ In perm held.
Proof.
  rewrite existsb_exists. split.
  - intros (perm & Hr & Hh). unfold hasString in Hh.
    apply existsb_exists in Hh. destruct Hh as (x & Hx & E).
    apply String.eqb_eq in E. subst x. eauto.
  - intros (perm & Hr & Hh). exists perm. split; [exact Hr|].
    unfold hasString. apply existsb_exists. exists perm.
    split; [exact Hh | apply String.eqb_refl].
Qed.

(** What [authorize] answers on a path that is neither auth-only nor an
    API path. *)
Lemma authorize_web (RP : RoutePermissions) (p : string) (payload : TokenPayload) :
  isAuthOnlyRoute p = false -> startsWith p "/api/" = false ->
  authorize RP p payload =
    match getRoutePermissions RP p with
    | [] => withUserInfo payload
    | required =>
        if existsb (hasString (permissions payload)) required
        then withUserInfo payload
        else Redirect (mkURL (getDashboardUrl (role payload)) [])
    end.
Proof.
  intros A S. unfold authorize. rewrite A, S.
  destruct (getRoutePermissions RP p) as [|perm required]; [reflexivity|].
  cbn [List.length Nat.ltb Nat.leb].
  now destruct (existsb (hasString (permissions payload)) (perm :: required)).
Qed.

(** The three answers of the permission check. *)
Lemma permission_check_cases (RP : RoutePermissions) (p : string)
    (payload : TokenPayload) :
  authorize RP p payload = withUserInfo payload \/
  authorize RP p payload = Json 403 "Insufficient permissions" \/
  authorize RP p payload = Redirect (mkURL (getDashboardUrl (role payload)) []).
Proof.
  unfold authorize. destruct (isAuthOnlyRoute p); [now left|].
  destruct (Nat.ltb 0 (List.length (getRoutePermissions RP p))); [|now left].
  destruct (negb _); [|now left].
  destruct (startsWith p "/api/"); [right; now left | right; now right].
Qed.

End GatewayFacts.

(** ** The resolver beyond the worker rule *)

Section ResolverFurther.
Import JsStringFacts Resolver GatewayFacts.

Variable ROUTE_PERMISSIONS : RoutePermissions.

(** With no key of the table equal to or a prefix of the path, a path under
    [/api/doctors/] resolves to [read:patient_profiles], a path under
    [/api/admin/] to [read:all_users], and a path under none of the three
    API sub-trees to the empty list: authentication alone suffices. *)
Theorem resolver_fallback_rules (p : string) :
  (forall k ps, In (k, ps) ROUTE_PERMISSIONS -> startsWith p k = false) ->
  (startsWith p "/api/doctors/" = true ->
   getRoutePermissions ROUTE_PERMISSIONS p = ["read:patient_profiles"]) /\
  (startsWith p "/api/admin/" = true ->
   getRoutePermissions ROUTE_PERMISSIONS p = ["read:all_users"]) /\
  (startsWith p "/api/workers/" = false ->
   startsWith p "/api/doctors/" = false ->
   startsWith p "/api/admin/" = false ->
   getRoutePermissions ROUTE_PERMISSIONS p = []).
Proof.
  intros Hno. unfold getRoutePermissions.
  rewrite (no_prefix_no_key _ _ Hno), (firstPrefixMatch_None _ _ Hno).
  unfold structuralPermissions. repeat split.
  - intros H. rewrite H. apply startsWith_inv in H. destruct H as [rest ->].
    reflexivity.
  - intros H. rewrite H. apply startsWith_inv in H. destruct H as [rest ->].
    reflexivity.
  - intros -> -> ->. reflexivity.
Qed.

(** Whenever some key of the table is a prefix of the path (the path itself
    included), the resolver answers from the table: with the permissions of
    an entry whose key is a prefix of the path, never with a hard-coded
    rule. *)
Theorem table_entry_beats_structural_rules (p : string) :
  (exists k ps, In (k, ps) ROUTE_PERMISSIONS /\ startsWith p k = true) ->
  exists k ps,
    In (k, ps) ROUTE_PERMISSIONS /\ startsWith p k = true /\
    getRoutePermissions ROUTE_PERMISSIONS p = ps.
Proof.
  intros (k0 & ps0 & I0 & S0). unfold getRoutePermissions.
  destruct (lookupRoute ROUTE_PERMISSIONS p) as [perms|] eqn:L.
  - exists p, perms. split; [now apply lookupRoute_Some|].
    split; [apply startsWith_refl | reflexivity].
  - destruct (firstPrefixMatch ROUTE_PERMISSIONS p) as [perms|] eqn:F.
    + destruct (firstPrefixMatch_Some _ _ _ F) as (k & I & S).
      exists k, perms. auto.
    + pose proof (firstPrefixMatch_None_inv _ _ F k0 ps0 I0) as C.
      congruence.
Qed.

End ResolverFurther.

Lemma resolver_fallback_rules_witness :
  (startsWith "/api/doctors/7/patients" "/api/doctors/" = true ->
   getRoutePermissions overlappingTable "/api/doctors/7/patients" =
     ["read:patient_profiles"]) /\
  (startsWith "/api/doctors/7/patients" "/api/admin/" = true ->
   getRoutePermissions overlappingTable "/api/doctors/7/patients" =
     ["read:all_users"]) /\
  (startsWith "/api/doctors/7/patients" "/api/workers/" = false ->
   startsWith "/api/doctors/7/patients" "/api/doctors/" = false ->
   startsWith "/api/doctors/7/patients" "/api/admin/" = false ->
   getRoutePermissions overlappingTable "/api/doctors/7/patients" = []).
Proof.
  apply (resolver_fallback_rules overlappingTable "/api/doctors/7/patients").
  unfold overlappingTable. simpl.
  intros k ps [E|[E|[E|[E|[]]]]]; inversion E; reflexivity.
Defined.

Lemma table_entry_beats_structural_rules_witness :
  structuralPermissions "/api/workers/42/documents" =
    ["read:own_documents"; "read:patient_documents"] /\
  getRoutePermissions overlappingTable "/api/workers/42/documents" =
    ["manage:workers"] /\
  exists k ps,
    In (k, ps) overlappingTable /\
    startsWith "/api/workers/42/documents" k = true /\
    getRoutePermissions overlappingTable "/api/workers/42/documents" = ps.
Proof.
  split; [reflexivity|]. split; [reflexivity|].
  apply (table_entry_beats_structural_rules overlappingTable
           "/api/workers/42/documents").
  exists "/api/workers/", ["manage:workers"]. split; [now left | reflexivity].
Defined.

(** ** The decision engine beyond the error answers *)

Section DecisionFurther.
Import JsStringFacts Classifier Decision GatewayFacts.

Variable ROUTE_PERMISSIONS : RoutePermissions.
Variable verifyToken : string -> option TokenPayload.

(** The permission check of lines 87-129 lets a verified identity through,
    with the identity headers, exactly when the path is auth-only, the
    resolved requirement is empty, or the identity holds one of the required
    permissions; otherwise it answers 403 on a path under [/api/] and
    redirects to the dashboard of the identity's role on any other path. *)
Theorem permission_check_allows_iff (p : string) (payload : TokenPayload) :
  (authorize ROUTE_PERMISSIONS p payload = withUserInfo payload <->
   isAuthOnlyRoute p = true \/
   getRoutePermissions ROUTE_PERMISSIONS p = [] \/
   exists perm,
     In perm (getRoutePermissions ROUTE_PERMISSIONS p) /\
     In perm (permissions payload)) /\
  (authorize ROUTE_PERMISSIONS p payload <> withUserInfo payload ->
   authorize ROUTE_PERMISSIONS p payload =
     if startsWith p "/api/" then Json 403 "Insufficient permissions"
     else Redirect (mkURL (getDashboardUrl (role payload)) [])).
Proof.
  unfold authorize.
  destruct (isAuthOnlyRoute p);
    [split; [split; [now left | reflexivity] | intros C; now elim C]|].
  destruct (getRoutePermissions ROUTE_PERMISSIONS p) as [|perm required] eqn:R.
  - split; [|intros C; now elim C].
    split; [intros _; right; now left | reflexivity].
  - cbn [List.length Nat.ltb Nat.leb].
    destruct (existsb (hasString (permissions payload)) (perm :: required))
      eqn:H; cbn [negb].
    + split; [|intros C; now elim C]. split; [|reflexivity].
      intros _. right. right. now apply hasPermission_true.
    + split; [|reflexivity]. split.
      * destruct (startsWith p "/api/"); discriminate.
      * intros [C|[C|C]]; [discriminate | discriminate |].
        apply hasPermission_true in C. congruence.
Qed.

(** The code behind the exemption checks (lines 46-130) builds a
    pass-through response only for a non-empty token that the verifier
    accepts, and that response is the one carrying the three identity
    headers set from the verified payload. *)
Theorem pass_through_only_when_verified
    (req : NextRequest) (headers : list (string * string)) :
  authenticate ROUTE_PERMISSIONS verifyToken req = Next headers ->
  exists token payload,
    extractToken req = Some token /\ token <> "" /\
    verifyToken token = Some payload /\
    Next headers = withUserInfo payload /\
    headers = [ ("x-user-id", userId payload);
                ("x-user-role", role payload);
                ("x-user-email", email payload) ].
Proof.
  unfold authenticate, afterVerify.
  assert (U : forall message,
            unauthenticated (pathname req) message <> Next headers)
    by (intros message; unfold unauthenticated;
        destruct (startsWith (pathname req) "/api/"); discriminate).
  destruct (extractToken req) as [token|]; [|intros C; now elim (U _ C)].
  destruct (truthy token) eqn:T; [|intros C; now elim (U _ C)].
  destruct (verifyToken token) as [payload|] eqn:V;
    [|intros C; now elim (U _ C)].
  intros H. exists token, payload. apply truthy_true in T.
  assert (W : Next headers = withUserInfo payload).
  { destruct (permission_check_cases ROUTE_PERMISSIONS (pathname req) payload)
      as [E|[E|E]]; rewrite E in H; [now symmetry | discriminate | discriminate]. }
  repeat split; try assumption. now inversion W.
Qed.

(** With no Authorization header of the [Bearer ] scheme (none at all, or
    another scheme or spelling), the credential the code behind the
    exemption checks uses is the [auth_token] cookie: a non-empty cookie is
    verified, an empty one is answered like a missing credential. *)
Theorem cookie_is_the_fallback_credential (req : NextRequest) (cookie : string) :
  (forall h, authorization req = Some h -> startsWith h "Bearer " = false) ->
  auth_token req = Some cookie ->
  (cookie <> "" ->
   authenticate ROUTE_PERMISSIONS verifyToken req =
     afterVerify ROUTE_PERMISSIONS (pathname req) (verifyToken cookie)) /\
  (cookie = "" ->
   authenticate ROUTE_PERMISSIONS verifyToken req =
     unauthenticated (pathname req) "Authentication required").
Proof.
  intros Hh Hc.
  assert (E : extractToken req = cookieToken req).
  { unfold extractToken. destruct (authorization req) as [h|]; [|reflexivity].
    rewrite (Hh h eq_refl). now rewrite andb_false_r. }
  unfold authenticate. rewrite E. unfold cookieToken. rewrite Hc. split.
  - intros Hne. apply truthy_true in Hne. now rewrite !Hne.
  - intros ->. reflexivity.
Qed.

(** The verifier is consulted on the extracted token only, and never on an
    empty one: two verifiers that agree on the request's non-empty token
    lead to the same response. *)
Theorem verifier_sees_only_the_nonempty_token
    (otherVerifier : string -> option TokenPayload) (req : NextRequest) :
  (forall token, extractToken req = Some token -> token <> "" ->
                 verifyToken token = otherVerifier token) ->
  middleware ROUTE_PERMISSIONS verifyToken req =
  middleware ROUTE_PERMISSIONS otherVerifier req.
Proof.
  intros H. unfold middleware, authenticate.
  destruct (isStaticFile (pathname req)); [reflexivity|].
  destruct (isPublicRoute (pathname req)); [reflexivity|].
  destruct (extractToken req) as [token|]; [|reflexivity].
  destruct (truthy token) eqn:T; [|reflexivity].
  apply truthy_true in T. now rewrite (H token eq_refl T).
Qed.

(** The middleware never answers with a JSON error: the 401 and 403
    responses are built for paths under [/api/] only, and every such path
    is let through as public before they are reached. *)
Theorem middleware_never_answers_json
    (req : NextRequest) (status : nat) (message : string) :
  middleware ROUTE_PERMISSIONS verifyToken req <> Json status message.
Proof.
  destruct (isExempt (pathname req)) eqn:Hex.
  - rewrite (middleware_exempt _ _ _ Hex). discriminate.
  - rewrite (middleware_not_exempt _ _ _ Hex).
    pose proof (not_exempt_not_api _ Hex) as Api.
    unfold authenticate, afterVerify, unauthenticated. rewrite Api.
    destruct (extractToken req) as [token|]; [|discriminate].
    destruct (truthy token); [|discriminate].
    destruct (verifyToken token) as [payload|]; [|discriminate].
    rewrite (authorize_web _ _ _ (not_exempt_not_authOnly _ Hex) Api).
    destruct (getRoutePermissions ROUTE_PERMISSIONS (pathname req));
      [discriminate|].
    destruct (existsb _ _); discriminate.
Qed.

(** Lines 46-130 answer by the shape of the path: on a path under [/api/]
    never with a redirect, on any other path never with a JSON error; and a
    JSON error is 401 with one of the two authentication messages or 403
    with the permission message. *)
Theorem stage_answers_by_path_shape (req : NextRequest) :
  (startsWith (pathname req) "/api/" = true ->
   forall target,
     authenticate ROUTE_PERMISSIONS verifyToken req <> Redirect target) /\
  (startsWith (pathname req) "/api/" = false ->
   forall status message,
     authenticate ROUTE_PERMISSIONS verifyToken req <> Json status message) /\
  (forall status message,
     authenticate ROUTE_PERMISSIONS verifyToken req = Json status message ->
     (status = 401 /\ (message = "Authentication required" \/
                       message = "Invalid or expired token")) \/
     (status = 403 /\ message = "Insufficient permissions")).
Proof.
  unfold authenticate, afterVerify, unauthenticated, authorize, withUserInfo.
  destruct (startsWith (pathname req) "/api/");
    (split; [|split]); try discriminate; intros;
    repeat match goal with
    | H : context [match ?x with _ => _ end] |- _ => destruct x
    | |- context [match ?x with _ => _ end] => destruct x
    end;
    try discriminate;
    match goal with
    | H : Json _ _ = Json _ _ |- _ => inversion H; subst; tauto
    end.
Qed.

(** Any-of is monotone: an identity that is let through by [authorize]
    stays let through when it holds more permissions. *)
Theorem more_permissions_keep_access (p : string) (payload richer : TokenPayload) :
  authorize ROUTE_PERMISSIONS p payload = withUserInfo payload ->
  (forall perm, In perm (permissions payload) -> In perm (permissions richer)) ->
  authorize ROUTE_PERMISSIONS p richer = withUserInfo richer.
Proof.
  unfold authorize. intros H Hsub.
  destruct (isAuthOnlyRoute p); [reflexivity|].
  destruct (Nat.ltb 0 (List.length (getRoutePermissions ROUTE_PERMISSIONS p)));
    [|reflexivity].
  destruct (existsb (hasString (permissions payload))
              (getRoutePermissions ROUTE_PERMISSIONS p)) eqn:Has.
  - apply hasPermission_true in Has. destruct Has as (perm & Hr & Hh).
    assert (Has' : existsb (hasString (permissions richer))
                     (getRoutePermissions ROUTE_PERMISSIONS p) = true)
      by (apply hasPermission_true; eauto).
    now rewrite Has'.
  - cbn [negb] in H. destruct (startsWith p "/api/"); discriminate.
Qed.

(** A redirect built by the code behind the exemption checks never loops:
    its target, the login page or a dashboard, is a path starting with a
    slash, and the middleware lets a request for such a path through. *)
Theorem redirect_targets_are_let_through (req : NextRequest) (target : URL) :
  authenticate ROUTE_PERMISSIONS verifyToken req = Redirect target ->
  startsWith (url_pathname target) "/" = true /\
  forall table verifier next,
    pathname next = url_pathname target ->
    middleware table verifier next = Next [].
Proof.
  intros H.
  assert (S : startsWith (url_pathname target) "/" = true).
  { unfold authenticate, afterVerify in H.
    assert (L : forall message,
              unauthenticated (pathname req) message = Redirect target ->
              startsWith (url_pathname target) "/" = true).
    { intros message. unfold unauthenticated.
      destruct (startsWith (pathname req) "/api/"); [discriminate|].
      intros E. inversion E. reflexivity. }
    destruct (extractToken req) as [token|]; [|now apply (L _ H)].
    destruct (truthy token); [|now apply (L _ H)].
    destruct (verifyToken token) as [payload|]; [|now apply (L _ H)].
    destruct (permission_check_cases ROUTE_PERMISSIONS (pathname req) payload)
      as [E|[E|E]]; rewrite E in H; [discriminate | discriminate |].
    inversion H. apply getDashboardUrl_slash. }
  split; [exact S|]. intros table verifier next E.
  apply middleware_exempt. unfold isExempt.
  rewrite (slash_is_public (pathname next)) by now rewrite E.
  apply orb_true_r.
Qed.

(** A path on the auth-only list is answered by [authorize] with the
    identity headers whatever the table and the permissions held; but each
    such path is public as well, so the middleware lets the request through
    without identity headers and never reaches that branch. *)
Theorem auth_only_routes_are_shadowed (req : NextRequest) :
  isAuthOnlyRoute (pathname req) = true ->
  (forall payload,
     authorize ROUTE_PERMISSIONS (pathname req) payload = withUserInfo payload) /\
  middleware ROUTE_PERMISSIONS verifyToken req = Next [].
Proof.
  intros A. split.
  - intros payload. unfold authorize. now rewrite A.
  - apply middleware_exempt. unfold isExempt.
    rewrite (authOnly_is_public _ A). apply orb_true_r.
Qed.

End DecisionFurther.

(** The dashboard switch falls back to the root path exactly for the roles
    other than the three known ones (compared as exact strings), every
    dashboard starts with a slash, and roles with the same dashboard other
    than the root are the same role. *)
Theorem dashboard_fallback_iff (r : string) :
  (getDashboardUrl r = "/" <->
   r <> "worker" /\ r <> "doctor" /\ r <> "admin") /\
  startsWith (getDashboardUrl r) "/" = true /\
  (forall r', getDashboardUrl r = getDashboardUrl r' ->
              getDashboardUrl r <> "/" -> r = r').
Proof.
  split; [|split; [apply GatewayFacts.getDashboardUrl_slash|]].
  - unfold getDashboardUrl.
    destruct (String.eqb_spec r "worker") as [->|Hw];
      [split; [discriminate | intros [C _]; now elim C]|].
    destruct (String.eqb_spec r "doctor") as [->|Hd];
      [split; [discriminate | intros (_ & C & _); now elim C]|].
    destruct (String.eqb_spec r "admin") as [->|Ha];
      [split; [discriminate | intros (_ & _ & C); now elim C]|].
    tauto.
  - intros r'. unfold getDashboardUrl.
    destruct (String.eqb_spec r "worker") as [->|Hw];
      [|destruct (String.eqb_spec r "doctor") as [->|Hd];
        [|destruct (String.eqb_spec r "admin") as [->|Ha]]];
      (destruct (String.eqb_spec r' "worker") as [->|Hw'];
        [|destruct (String.eqb_spec r' "doctor") as [->|Hd'];
          [|destruct (String.eqb_spec r' "admin") as [->|Ha']]]);
      intros E N; try reflexivity; try discriminate; now elim N.
Qed.

Lemma pass_through_only_when_verified_witness :
  exists token payload,
    extractToken bearerRequest = Some token /\ token <> "" /\
    acceptWorkerToken token = Some payload /\
    Next [ ("x-user-id", "w-17"); ("x-user-role", "worker");
           ("x-user-email", "w17@example.org") ] = withUserInfo payload /\
    [ ("x-user-id", "w-17"); ("x-user-role", "worker");
      ("x-user-email", "w17@example.org") ] =
    [ ("x-user-id", userId payload); ("x-user-role", role payload);
      ("x-user-email", email payload) ].
Proof.
  apply (pass_through_only_when_verified [] acceptWorkerToken bearerRequest).
  reflexivity.
Defined.

Lemma cookie_is_the_fallback_credential_witness :
  authenticate [] acceptWorkerToken lowerCaseSchemeRequest =
    afterVerify [] "/api/workers/42" (acceptWorkerToken "worker-token") /\
  authenticate [] acceptWorkerToken emptyCookieRequest =
    Json 401 "Authentication required".
Proof.
  split.
  - apply (cookie_is_the_fallback_credential [] acceptWorkerToken
             lowerCaseSchemeRequest "worker-token").
    + intros h E. inversion E. reflexivity.
    + reflexivity.
    + discriminate.
  - apply (cookie_is_the_fallback_credential [] acceptWorkerToken
             emptyCookieRequest "").
    + intros h E. discriminate E.
    + reflexivity.
    + reflexivity.
Defined.

Lemma verifier_sees_only_the_nonempty_token_witness :
  middleware overlappingTable acceptAsWorker bearerRequest =
  middleware overlappingTable acceptWorkerToken bearerRequest.
Proof.
  apply (verifier_sees_only_the_nonempty_token overlappingTable acceptAsWorker
           acceptWorkerToken bearerRequest).
  intros token E N. inversion E. reflexivity.
Defined.

Lemma more_permissions_keep_access_witness :
  authorize [] "/api/workers/42" seniorWorkerPayload =
  withUserInfo seniorWorkerPayload.
Proof.
  apply (more_permissions_keep_access [] "/api/workers/42" workerPayload
           seniorWorkerPayload).
  - reflexivity.
  - simpl. intros perm [<-|[]]. right. now left.
Defined.

Lemma redirect_targets_are_let_through_witness :
  startsWith
    (url_pathname (mkURL "/auth/login" [("redirect", "/workers/dashboard")]))
    "/" = true /\
  forall table verifier next,
    pathname next =
      url_pathname (mkURL "/auth/login" [("redirect", "/workers/dashboard")]) ->
    middleware table verifier next = Next [].
Proof.
  apply (redirect_targets_are_let_through [] rejectAll
           (mkRequest "/workers/dashboard" None (Some "expired"))
           (mkURL "/auth/login" [("redirect", "/workers/dashboard")])).
  reflexivity.
Defined.

Lemma auth_only_routes_are_shadowed_witness :
  (forall payload,
     authorize recordsTable "/api/auth/verify" payload = withUserInfo payload) /\
  middleware recordsTable acceptAsWorker
    (mkRequest "/api/auth/verify" (Some "Bearer worker-token") None) = Next [].
Proof.
  apply (auth_only_routes_are_shadowed recordsTable acceptAsWorker
           (mkRequest "/api/auth/verify" (Some "Bearer worker-token") None)).
  reflexivity.
Defined.

